(** * The bucket-size probe of [main.py]

    A shallow embedding of [get_s3_bucket_size_bytes], [send_metric] and
    [collect_metric].  Python integers are [Z] (they are unbounded), the
    dictionaries that boto3 hands back are association lists, exceptions
    are an outcome of every computation, and the calls that leave the
    process (page requests, the progress message, the telemetry SDK) are
    recorded, in order, in a trace. *)

From Stdlib Require Import ZArith List String Ascii Bool Lia Permutation.
Import ListNotations.

#[local] Set Warnings "-register-all".

#[local] Open Scope string_scope.
#[local] Open Scope list_scope.
#[local] Open Scope Z_scope.

(** ** Python values and exceptions *)

(** The values that occur in a parsed listing response and in the attribute
    argument.  Floats are left out: the only float of the program is
    [mbSize], see [pyfloat] below. *)
Inductive pyobj : Type :=
| VNone
| VBool (b : bool)
| VInt (z : Z)
| VStr (s : string)
| VList (items : list pyobj)
| VDict (entries : list (string * pyobj)).

(** The exceptions the program can end with.  [ClientError] and
    [EndpointConnectionError] are botocore's: the service answered with an
    error code (for instance [AccessDenied]), or could not be reached.
    [PyException] is a plain [Exception], which is what the telemetry SDK
    raises from [force_flush].  The others are raised by the interpreter. *)
Inductive exn : Type :=
| KeyError (key : string)
| TypeError
| OverflowError
| ZeroDivisionError
| ClientError (code : string)
| EndpointConnectionError
| PyException (message : string).

(** How a computation ends.  [Running] is the answer of a loop that has not
    finished within the number of iterations it was given. *)
Inductive outcome (A : Type) : Type :=
| Return (a : A)
| Raise (e : exn)
| Running.

Arguments Return {A} a.
Arguments Raise {A} e.
Arguments Running {A}.

Definition obind {A B : Type} (m : outcome A) (k : A -> outcome B) : outcome B :=
  match m with
  | Return a => k a
  | Raise e => Raise e
  | Running => Running
  end.

Notation "x <~ m ;; k" := (obind m (fun x => k))
  (at level 61, m at next level, right associativity).

(** ** Calls that leave the process *)

Inductive s3_call : Type :=
| list_objects_v2 (bucket : string) (token : option string).

(** [mbSize]: the double nearest to [num / den]. *)
Record pyfloat : Type := { num : Z; den : Z }.

Inductive otel_call : Type :=
| OTLPMetricExporter (endpoint : string)
| PeriodicExportingMetricReader
| Resource (service_name : string)
| MeterProvider
| set_meter_provider
| get_meter (name : string)
| create_gauge (name description : string)
| gauge_set (amount : Z) (attributes : pyobj)
| force_flush.

Inductive event : Type :=
| S3 (c : s3_call)
| print (bucket : string) (mbSize : pyfloat)
| Otel (c : otel_call).

Definition trace : Type := list event.

(** A computation with effects: the calls it made, oldest first, and how it
    ended. *)
Definition M (A : Type) : Type := (trace * outcome A)%type.

Definition ret {A : Type} (a : A) : M A := ([], Return a).

Definition bind {A B : Type} (m : M A) (k : A -> M B) : M B :=
  match m with
  | (t, Return a) => let '(t', r) := k a in (t ++ t', r)
  | (t, Raise e) => (t, Raise e)
  | (t, Running) => (t, Running)
  end.

Definition emit (ev : event) : M unit := ([ev], Return tt).

Definition lift {A : Type} (m : outcome A) : M A := ([], m).

Notation "x <- m ;; k" := (bind m (fun x => k))
  (at level 61, m at next level, right associativity).

(** ** The operations of the interpreter that the program uses *)

Fixpoint lookup (key : string) (entries : list (string * pyobj)) : option pyobj :=
  match entries with
  | [] => None
  | (k, v) :: rest => if String.eqb k key then Some v else lookup key rest
  end.

(** [obj[key]] for a string key: only a dictionary can be subscripted with a
    string, and a key that is not there is a [KeyError]. *)
Definition getitem (obj : pyobj) (key : string) : outcome pyobj :=
  match obj with
  | VDict entries =>
      match lookup key entries with
      | Some v => Return v
      | None => Raise (KeyError key)
      end
  | _ => Raise TypeError
  end.

(** The values [for item in obj] goes through: the elements of a list, the
    keys of a dictionary, the characters of a string; anything else is not
    iterable. *)
Definition iterate (obj : pyobj) : outcome (list pyobj) :=
  match obj with
  | VList items => Return items
  | VDict entries => Return (map (fun kv => VStr (fst kv)) entries)
  | VStr s => Return (map (fun c => VStr (String c EmptyString)) (list_ascii_of_string s))
  | _ => Raise TypeError
  end.

(** [total_size += size]: integers add, and a boolean is the integer 0 or 1. *)
Definition iadd (total_size : Z) (size : pyobj) : outcome Z :=
  match size with
  | VInt z => Return (total_size + z)
  | VBool b => Return (total_size + Z.b2z b)
  | _ => Raise TypeError
  end.

(** [a / b] on integers gives the correctly rounded double.  A quotient of
    magnitude [2^1024 - 2^970] or more rounds to [2^1024], which no double
    holds: the interpreter raises [OverflowError] ("integer division result
    too large for a float"). *)
Definition DBL_ROUND_OVERFLOW : Z := 2 ^ 1024 - 2 ^ 970.

Definition int_truediv (a b : Z) : outcome pyfloat :=
  if b =? 0 then Raise ZeroDivisionError
  else if DBL_ROUND_OVERFLOW * Z.abs b <=? Z.abs a then Raise OverflowError
  else Return {| num := a; den := b |}.

(** [x / b] on a double, used with [b = 1024]: dividing by a power of two
    only lowers the exponent, so it neither raises nor rounds. *)
Definition float_truediv (x : pyfloat) (b : Z) : pyfloat :=
  {| num := num x; den := den x * b |}.

(** ** The page iterator *)

(** What [__next__] of an iterator answers. *)
Inductive step (I : Type) : Type :=
| Yield (page : pyobj) (rest : I)
| StopIteration
| Failure (e : exn).

Arguments Yield {I} page rest.
Arguments StopIteration {I}.
Arguments Failure {I} e.

Record client : Type := {
  endpoint_url : string;
  region_name : string;
  aws_access_key_id : string;
  aws_secret_access_key : string
}.

(** Lines 30 to 32.  Building the client sends nothing. *)
Definition session_client (s3_endpoint_url s3_region_name s3_aws_access_key_id
    s3_aws_secret_access_key : string) : client :=
  {| endpoint_url := s3_endpoint_url;
     region_name := s3_region_name;
     aws_access_key_id := s3_aws_access_key_id;
     aws_secret_access_key := s3_aws_secret_access_key |}.

(** ** [get_s3_bucket_size_bytes] *)

(** Lines 40 and 41. *)
Fixpoint for_item (items : list pyobj) (total_size : Z) : outcome Z :=
  match items with
  | [] => Return total_size
  | item :: rest =>
      size <~ getitem item "Size" ;;
      total_size' <~ iadd total_size size ;;
      for_item rest total_size'
  end.

(** Lines 39 to 41, the body of the outer loop. *)
Definition sum_page (page : pyobj) (total_size : Z) : outcome Z :=
  contents <~ getitem page "Contents" ;;
  items <~ iterate contents ;;
  for_item items total_size.

Section Aggregate.

(** boto3's side of lines 30 to 35: [paginate] is the iterator that
    [s3.get_paginator('list_objects_v2').paginate(Bucket = ...)] hands
    back, [next] its [__next__], together with the requests that the call
    sends to the service.  Nothing is sent before the loop asks for the
    first page: a service that cannot be reached, or that rejects the
    credentials, is an iterator whose first answer is a [Failure]. *)
Context {I : Type}.
Variable paginate : client -> string -> I.
Variable next : I -> list s3_call * step I.

Definition pull (page_iterator : I) : M (option (pyobj * I)) :=
  let '(calls, reply) := next page_iterator in
  (map S3 calls,
   match reply with
   | Yield page rest => Return (Some (page, rest))
   | StopIteration => Return None
   | Failure e => Raise e
   end).

(** Lines 38 to 41.  One unit of [fuel] is one call of [__next__]. *)
Fixpoint for_page (fuel : nat) (page_iterator : I) (total_size : Z) : M Z :=
  match fuel with
  | O => ([], Running)
  | S fuel' =>
      reply <- pull page_iterator ;;
      match reply with
      | None => ret total_size
      | Some (page, rest) =>
          total_size' <- lift (sum_page page total_size) ;;
          for_page fuel' rest total_size'
      end
  end.

(** Lines 23 to 45.  The function returns the integer [total_size]; the
    division of line 43 only feeds the message of line 44, but it is
    evaluated, and can raise, before the function returns. *)
Definition get_s3_bucket_size_bytes (fuel : nat)
    (s3_endpoint_url s3_region_name s3_aws_access_key_id
     s3_aws_secret_access_key s3_bucket_name : string) : M Z :=
  let s3 := session_client s3_endpoint_url s3_region_name s3_aws_access_key_id
              s3_aws_secret_access_key in
  let page_iterator := paginate s3 s3_bucket_name in
  total_size <- for_page fuel page_iterator 0 ;;
  mbSize <- lift (int_truediv total_size 1024) ;;
  _ <- emit (print s3_bucket_name (float_truediv mbSize 1024)) ;;
  ret total_size.

(** ** [send_metric] and [collect_metric] *)

(** The telemetry SDK's side of lines 55 to 68: what it answers to a call,
    [None] when the call returns and the exception when it raises.  The SDK
    raises, for one, from [create_gauge] on a name that is not a valid
    instrument name, and from [set] on an amount that no double holds. *)
Variable sdk : otel_call -> option exn.

(** One call of the SDK.  [send_metric] checks nothing itself: an exception
    of the call ends it, and what [force_flush] returns at line 68 is
    dropped. *)
Definition sdk_call (c : otel_call) : M unit :=
  _ <- emit (Otel c) ;;
  match sdk c with
  | None => ret tt
  | Some e => lift (Raise e)
  end.

(** Lines 48 to 68. *)
Definition send_metric
    (otel_service_name otel_endpoint otel_metric_name : string)
    (otel_attributes : pyobj) (value : Z) : M unit :=
  _ <- sdk_call (OTLPMetricExporter otel_endpoint) ;;
  _ <- sdk_call PeriodicExportingMetricReader ;;
  _ <- sdk_call (Resource otel_service_name) ;;
  _ <- sdk_call MeterProvider ;;
  _ <- sdk_call set_meter_provider ;;
  _ <- sdk_call (get_meter "shared_meter") ;;
  _ <- sdk_call (create_gauge otel_metric_name "Size of S3 bucket in bytes") ;;
  _ <- sdk_call (gauge_set value otel_attributes) ;;
  sdk_call force_flush.

(** Lines 70 to 94. *)
Definition collect_metric (fuel : nat)
    (s3_endpoint_url s3_region_name s3_aws_access_key_id
     s3_aws_secret_access_key s3_bucket_name
     otel_service_name otel_endpoint otel_metric_name : string)
    (otel_attributes : pyobj) : M unit :=
  s3_size_bytes <- get_s3_bucket_size_bytes fuel s3_endpoint_url s3_region_name
                     s3_aws_access_key_id s3_aws_secret_access_key s3_bucket_name ;;
  send_metric otel_service_name otel_endpoint otel_metric_name
    otel_attributes s3_size_bytes.

(** The iterator hands over [pages], in this order, sending [calls], and is
    then in state [it']. *)
Inductive yields : I -> list pyobj -> list s3_call -> I -> Prop :=
| yields_nil it : yields it [] [] it
| yields_cons it calls page rest pages calls' it' :
    next it = (calls, Yield page rest) ->
    yields rest pages calls' it' ->
    yields it (page :: pages) (calls ++ calls') it'.

End Aggregate.

(** The calls of lines 55 to 68, in the order of the source. *)
Definition sdk_calls (otel_service_name otel_endpoint otel_metric_name : string)
    (otel_attributes : pyobj) (value : Z) : list otel_call :=
  [OTLPMetricExporter otel_endpoint;
   PeriodicExportingMetricReader;
   Resource otel_service_name;
   MeterProvider;
   set_meter_provider;
   get_meter "shared_meter";
   create_gauge otel_metric_name "Size of S3 bucket in bytes";
   gauge_set value otel_attributes;
   force_flush].

(** Calls made one after the other, until one raises. *)
Fixpoint attempt (sdk : otel_call -> option exn) (calls : list otel_call) : M unit :=
  match calls with
  | [] => ret tt
  | c :: rest => _ <- sdk_call sdk c ;; attempt sdk rest
  end.

(** Two SDKs, for tests: one whose calls all return, and one that, as the
    OpenTelemetry SDK does, refuses the empty instrument name. *)
Definition sdk_returns (c : otel_call) : option exn := None.

Definition sdk_checks_name (c : otel_call) : option exn :=
  match c with
  | create_gauge EmptyString _ => Some (PyException "invalid instrument name")
  | _ => None
  end.

(** ** Listings *)

(** An object descriptor with an integer [Size]. *)
Definition object_size (item : pyobj) (size : Z) : Prop :=
  getitem item "Size" = Return (VInt size).

(** A page whose [Contents] is a list of object descriptors of these sizes.
    The page may have any other field. *)
Definition page_sizes (page : pyobj) (sizes : list Z) : Prop :=
  exists items,
    getitem page "Contents" = Return (VList items) /\
    Forall2 object_size items sizes.

Definition sum_sizes (sizes : list Z) : Z := fold_right Z.add 0 sizes.

Definition total_bytes (listing : list (list Z)) : Z :=
  fold_right (fun sizes acc => sum_sizes sizes + acc) 0 listing.

Definition nonnegative (listing : list (list Z)) : Prop :=
  Forall (Forall (fun size => 0 <= size)) listing.

(** The largest total whose size in kilobytes, line 43, still rounds to a
    double. *)
Definition max_total : Z := DBL_ROUND_OVERFLOW * 1024 - 1.

(** The errors of the listing stage: the ones botocore raises for a request. *)
Definition listing_error (e : exn) : bool :=
  match e with
  | ClientError _ | EndpointConnectionError => true
  | _ => false
  end.

Definition is_otel (ev : event) : bool :=
  match ev with
  | Otel _ => true
  | _ => false
  end.

Definition is_request (ev : event) : bool :=
  match ev with
  | S3 _ => true
  | _ => false
  end.

Definition is_create_gauge (ev : event) : bool :=
  match ev with
  | Otel (create_gauge _ _) => true
  | _ => false
  end.

Definition is_gauge_set (ev : event) : bool :=
  match ev with
  | Otel (gauge_set _ _) => true
  | _ => false
  end.

Definition is_force_flush (ev : event) : bool :=
  match ev with
  | Otel force_flush => true
  | _ => false
  end.

(** ** Two iterators *)

(** What one request gets: a page, or an exception. *)
Inductive reply : Type :=
| Page (page : pyobj)
| Error (e : exn).

(** A recorded iterator, for tests: it hands over what is on the tape and
    sends nothing. *)
Definition tape_next (tape : list reply) : list s3_call * step (list reply) :=
  match tape with
  | [] => ([], StopIteration)
  | Page page :: rest => ([], Yield page rest)
  | Error e :: rest => ([], Failure e)
  end.

(** A descriptor of an object of [size] bytes, and a page of such
    descriptors, with the fields the service sends. *)
Definition obj (size : Z) : pyobj :=
  VDict [("Key", VStr "k"); ("Size", VInt size)].

Definition page_of (sizes : list Z) : pyobj :=
  VDict [("Contents", VList (map obj sizes)); ("KeyCount", VInt (Z.of_nat (List.length sizes)))].

(** Modelled from the spec: the continuation token that comes with a page,
    if one does. *)
Definition next_token (page : pyobj) : option string :=
  match getitem page "NextContinuationToken" with
  | Return (VStr token) => Some token
  | _ => None
  end.

(** Where a paginator stands: a page to request, or the end. *)
Inductive cursor : Type :=
| Pending (token : option string)
| Exhausted.

Section Paginator.

(** The listing service: its answer to a request for [bucket] with a
    continuation token, or with none. *)
Variable ListObjects : client -> string -> option string -> reply.

(** Modelled from the spec: boto3's paginator for [list_objects_v2], which
    [main.py] obtains at lines 34 and 35 and which is not part of its
    source.  It starts with no continuation token, requests the next page
    with the token that came with the last one, and stops when a page comes
    with none. *)
Definition boto_next (it : client * string * cursor)
    : list s3_call * step (client * string * cursor) :=
  match it with
  | (s3, bucket, Exhausted) => ([], StopIteration)
  | (s3, bucket, Pending token) =>
      ([list_objects_v2 bucket token],
       match ListObjects s3 bucket token with
       | Error e => Failure e
       | Page page =>
           Yield page
             (s3, bucket,
              match next_token page with
              | Some token' => Pending (Some token')
              | None => Exhausted
              end)
       end)
  end.

Definition boto_paginate (s3 : client) (bucket : string) : client * string * cursor :=
  (s3, bucket, Pending None).

(** The tokens of the first [n] requests that the spec's pagination sends,
    starting from [token]. *)
Fixpoint token_chain (s3 : client) (bucket : string) (n : nat) (token : option string)
    : list (option string) :=
  match n with
  | O => []
  | S n' =>
      token ::
      match ListObjects s3 bucket token with
      | Page page =>
          match next_token page with
          | Some token' => token_chain s3 bucket n' (Some token')
          | None => []
          end
      | Error _ => []
      end
  end.

(** The pages that come back for those requests. *)
Fixpoint page_chain (s3 : client) (bucket : string) (n : nat) (token : option string)
    : list pyobj :=
  match n with
  | O => []
  | S n' =>
      match ListObjects s3 bucket token with
      | Page page =>
          page ::
          match next_token page with
          | Some token' => page_chain s3 bucket n' (Some token')
          | None => []
          end
      | Error _ => []
      end
  end.

End Paginator.

(** What one page adds to the total. *)
Definition page_total (page : pyobj) : Z :=
  match sum_page page 0 with
  | Return total_size => total_size
  | _ => 0
  end.

(** Two listing services, for tests: one whose single page holds objects of
    the given sizes, and one that goes on answering with a new token. *)
Definition single_page (sizes : list Z) (s3 : client) (bucket : string)
    (token : option string) : reply :=
  Page (page_of sizes).

Definition endless (s3 : client) (bucket : string) (token : option string) : reply :=
  Page (VDict [("Contents", VList []);
               ("NextContinuationToken",
                VStr (match token with
                      | None => "1"
                      | Some t => String.append t "1"
                      end))]).

(** Recorded listings: two pages of objects; the same with the request for
    the second page rejected; an object of [2^1034] bytes; a bucket without
    objects, as the service lists it; an object without [Size]. *)
Definition two_pages : list reply :=
  [Page (page_of [1048576; 2097152]); Page (page_of [5242880])].

Definition rejected_second_page : list reply :=
  [Page (page_of [1048576; 2097152]); Error (ClientError "AccessDenied");
   Page (page_of [5242880])].

Definition huge_object : list reply := [Page (page_of [2 ^ 1034])].

Definition empty_bucket : list reply :=
  [Page (VDict [("Name", VStr "some-name"); ("KeyCount", VInt 0);
                ("IsTruncated", VBool false)])].

Definition object_without_size : list reply :=
  [Page (VDict [("Contents", VList [obj 1; VDict [("Key", VStr "k")]; obj 2])])].

Definition example_attributes : pyobj :=
  VDict [("namespace", VStr "monitoring"); ("role", VStr "metrics")].

(** ** More about pages *)

Definition is_print (ev : event) : bool :=
  match ev with
  | print _ _ => true
  | _ => false
  end.

(** The values that [total_size += ...] accepts. *)
Definition is_number (v : pyobj) : bool :=
  match v with
  | VInt _ | VBool _ => true
  | _ => false
  end.

(** The values that [for item in ...] accepts. *)
Definition iterable (v : pyobj) : bool :=
  match v with
  | VList _ | VDict _ | VStr _ => true
  | _ => false
  end.

(** What a run of pages adds to the total. *)
Definition contributions (pages : list pyobj) : Z :=
  fold_right (fun page acc => page_total page + acc) 0 pages.

(** More recorded listings: a page without [Contents] between two pages; a
    [Size] that is a text; a [Contents] that is [None]; a negative [Size]. *)
Definition missing_contents_second : list reply :=
  [Page (page_of [1048576; 2097152]); Page (VDict [("KeyCount", VInt 0)]);
   Page (page_of [5242880])].

Definition text_size : list reply :=
  [Page (VDict [("Contents",
                 VList [obj 1; VDict [("Key", VStr "k"); ("Size", VStr "12")]; obj 2])])].

Definition null_contents : list reply :=
  [Page (page_of [7]); Page (VDict [("Contents", VNone)])].

Definition negative_size : list reply := [Page (page_of [5; -12])].

(** An iterator that never stops: one more page of one byte, every time. *)
Definition forever_next (it : unit) : list s3_call * step unit :=
  ([], Yield (page_of [1]) tt).

(** The objects of [two_pages] on one page, in another order. *)
Definition regrouped_pages : list reply :=
  [Page (page_of [2097152; 1048576; 5242880])].

(** * Properties *)

(** ** The monad *)

Lemma bind_ret_l {A B : Type} (a : A) (k : A -> M B) : bind (ret a) k = k a.
Proof. unfold bind, ret. destruct (k a) as [t r]. reflexivity. Qed.

Lemma bind_raise {A B : Type} (t : trace) (e : exn) (k : A -> M B) :
  bind (t, Raise e) k = (t, Raise e).
Proof. reflexivity. Qed.

Lemma bind_running {A B : Type} (t : trace) (k : A -> M B) :
  bind (t, Running) k = (t, Running).
Proof. reflexivity. Qed.

Lemma bind_return {A B : Type} (t : trace) (a : A) (k : A -> M B) :
  bind (t, Return a) k = (t ++ fst (k a), snd (k a)).
Proof. unfold bind. destruct (k a) as [t' r]. reflexivity. Qed.

(** ** The inner loop and one page *)

Lemma for_item_sizes (items : list pyobj) (sizes : list Z) :
  Forall2 object_size items sizes ->
  forall total_size, for_item items total_size = Return (total_size + sum_sizes sizes).
Proof.
  induction 1 as [| item size items sizes Hitem _ IH]; intro total_size; simpl.
  - now rewrite Z.add_0_r.
  - rewrite Hitem. simpl. rewrite IH. f_equal. lia.
Qed.

Lemma sum_page_sizes (page : pyobj) (sizes : list Z) (total_size : Z) :
  page_sizes page sizes ->
  sum_page page total_size = Return (total_size + sum_sizes sizes).
Proof.
  intros (items & Hcontents & Hitems). unfold sum_page.
  rewrite Hcontents. simpl. now apply for_item_sizes.
Qed.

(** A page whose [Contents] is the empty list leaves the total as it is. *)
Lemma sum_page_empty_list (page : pyobj) (total_size : Z) :
  getitem page "Contents" = Return (VList []) ->
  sum_page page total_size = Return total_size.
Proof. intro H. unfold sum_page. now rewrite H. Qed.

(** A page without [Contents] ends the aggregation with a [KeyError]. *)
Lemma sum_page_no_contents (entries : list (string * pyobj)) (total_size : Z) :
  lookup "Contents" entries = None ->
  sum_page (VDict entries) total_size = Raise (KeyError "Contents").
Proof. intro H. unfold sum_page. simpl. now rewrite H. Qed.

(** The descriptors before the first one without [Size] are added, and the
    loop ends there. *)
Lemma for_item_no_size (before : list pyobj) (sizes : list Z) (item : pyobj)
    (after : list pyobj) (total_size : Z) :
  Forall2 object_size before sizes ->
  getitem item "Size" = Raise (KeyError "Size") ->
  for_item (before ++ item :: after) total_size = Raise (KeyError "Size").
Proof.
  intros Hbefore Hitem. revert total_size.
  induction Hbefore as [| x size xs sizes Hx _ IH]; intro total_size; simpl.
  - now rewrite Hitem.
  - rewrite Hx. simpl. apply IH.
Qed.

Lemma page_of_sizes (sizes : list Z) : page_sizes (page_of sizes) sizes.
Proof.
  exists (map obj sizes). split; [reflexivity |].
  induction sizes; simpl; constructor; auto. reflexivity.
Qed.

Lemma total_bytes_nonneg (listing : list (list Z)) :
  nonnegative listing -> 0 <= total_bytes listing.
Proof.
  induction 1 as [| sizes listing Hsizes _ IH]; simpl; [lia |].
  assert (0 <= sum_sizes sizes) by (induction Hsizes; simpl; lia). lia.
Qed.

(** ** The outer loop *)

Section Loop.

Context {I : Type}.
Variable next : I -> list s3_call * step I.

Lemma for_page_stop (fuel : nat) (it : I) (calls : list s3_call) (total_size : Z) :
  next it = (calls, StopIteration) ->
  for_page next (S fuel) it total_size = (map S3 calls, Return total_size).
Proof.
  intro H. simpl. unfold pull. rewrite H. rewrite bind_return. simpl.
  now rewrite app_nil_r.
Qed.

Lemma for_page_failure (fuel : nat) (it : I) (calls : list s3_call) (e : exn)
    (total_size : Z) :
  next it = (calls, Failure e) ->
  for_page next (S fuel) it total_size = (map S3 calls, Raise e).
Proof. intro H. simpl. unfold pull. now rewrite H. Qed.

Lemma for_page_yield (fuel : nat) (it rest : I) (calls : list s3_call)
    (page : pyobj) (total_size : Z) :
  next it = (calls, Yield page rest) ->
  for_page next (S fuel) it total_size =
  bind (map S3 calls, sum_page page total_size)
       (fun total_size' => for_page next fuel rest total_size').
Proof.
  intro H. simpl. unfold pull. rewrite H.
  unfold bind, lift. destruct (sum_page page total_size); simpl.
  - now destruct (for_page next fuel rest a).
  - now rewrite app_nil_r.
  - now rewrite app_nil_r.
Qed.

(** After the pages that [yields] lists, the loop goes on from the state the
    iterator is then in, with the sizes of those pages added. *)
Lemma for_page_yields (it it' : I) (pages : list pyobj) (calls : list s3_call)
    (listing : list (list Z)) :
  yields next it pages calls it' ->
  Forall2 page_sizes pages listing ->
  forall (fuel : nat) (total_size : Z),
    for_page next (List.length pages + fuel) it total_size =
    (map S3 calls ++ fst (for_page next fuel it' (total_size + total_bytes listing)),
     snd (for_page next fuel it' (total_size + total_bytes listing))).
Proof.
  intro Hy. revert listing.
  induction Hy as [it | it calls page rest pages calls' it' Hnext _ IH];
    intros listing Hpages fuel total_size.
  - inversion Hpages; subst. simpl. rewrite Z.add_0_r.
    now destruct (for_page next fuel it total_size).
  - inversion Hpages as [| ? sizes ? listing' Hpage Hrest]; subst.
    change (List.length (page :: pages) + fuel)%nat
      with (S (List.length pages + fuel)).
    rewrite (for_page_yield _ _ _ _ _ _ Hnext).
    rewrite (sum_page_sizes _ _ _ Hpage), bind_return.
    rewrite (IH _ Hrest). simpl.
    rewrite map_app, <- app_assoc.
    now replace (total_size + sum_sizes sizes + total_bytes listing')
      with (total_size + (sum_sizes sizes + total_bytes listing')) by lia.
Qed.

End Loop.

(** ** Line 43 *)

Lemma max_total_range : 2 ^ 63 <= max_total.
Proof. apply Z.leb_le. vm_compute. reflexivity. Qed.

Lemma int_truediv_1024 (total_size : Z) :
  int_truediv total_size 1024 =
  if max_total <? Z.abs total_size then Raise OverflowError
  else Return {| num := total_size; den := 1024 |}.
Proof.
  unfold int_truediv, max_total.
  change (1024 =? 0) with false. change (Z.abs 1024) with 1024. cbv iota.
  destruct (Z.leb_spec (DBL_ROUND_OVERFLOW * 1024) (Z.abs total_size));
    destruct (Z.ltb_spec (DBL_ROUND_OVERFLOW * 1024 - 1) (Z.abs total_size));
    try reflexivity; lia.
Qed.

(** ** [get_s3_bucket_size_bytes] after its loop *)

Section Aggregation.

Context {I : Type}.
Variable paginate : client -> string -> I.
Variable next : I -> list s3_call * step I.
Variables s3_endpoint_url s3_region_name s3_aws_access_key_id
  s3_aws_secret_access_key s3_bucket_name : string.

#[local] Abbreviation page_iterator :=
  (paginate (session_client s3_endpoint_url s3_region_name s3_aws_access_key_id
               s3_aws_secret_access_key) s3_bucket_name).
#[local] Abbreviation aggregate fuel :=
  (get_s3_bucket_size_bytes paginate next fuel s3_endpoint_url s3_region_name
     s3_aws_access_key_id s3_aws_secret_access_key s3_bucket_name).

Lemma aggregate_loop_return (fuel : nat) (tr : trace) (total_size : Z) :
  for_page next fuel page_iterator 0 = (tr, Return total_size) ->
  aggregate fuel =
  if max_total <? Z.abs total_size then (tr, Raise OverflowError)
  else (tr ++ [print s3_bucket_name {| num := total_size; den := 1024 * 1024 |}],
        Return total_size).
Proof.
  intro H. unfold get_s3_bucket_size_bytes. rewrite H, bind_return.
  unfold lift. rewrite int_truediv_1024.
  destruct (max_total <? Z.abs total_size); simpl.
  - now rewrite app_nil_r.
  - reflexivity.
Qed.

Lemma aggregate_loop_raise (fuel : nat) (tr : trace) (e : exn) :
  for_page next fuel page_iterator 0 = (tr, Raise e) ->
  aggregate fuel = (tr, Raise e).
Proof. intro H. unfold get_s3_bucket_size_bytes. now rewrite H. Qed.

Lemma aggregate_loop_running (fuel : nat) (tr : trace) :
  for_page next fuel page_iterator 0 = (tr, Running) ->
  aggregate fuel = (tr, Running).
Proof. intro H. unfold get_s3_bucket_size_bytes. now rewrite H. Qed.

(** The loop on a listing that ends: every page is added, and the loop is
    over once the iterator has been asked one more time. *)
Lemma for_page_listing (pages : list pyobj) (listing : list (list Z))
    (calls calls_end : list s3_call) (it_end : I) (fuel : nat) :
  yields next page_iterator pages calls it_end ->
  next it_end = (calls_end, StopIteration) ->
  Forall2 page_sizes pages listing ->
  (List.length pages < fuel)%nat ->
  for_page next fuel page_iterator 0 =
  (map S3 (calls ++ calls_end), Return (total_bytes listing)).
Proof.
  intros Hy Hstop Hpages Hfuel.
  replace fuel with (List.length pages + S (fuel - S (List.length pages)))%nat by lia.
  rewrite (for_page_yields next _ _ _ _ _ Hy Hpages).
  rewrite (for_page_stop next _ _ _ _ Hstop). simpl.
  now rewrite map_app.
Qed.

Lemma for_page_listing_failure (pages : list pyobj) (listing : list (list Z))
    (calls calls_k : list s3_call) (it_k : I) (e : exn) (fuel : nat) :
  yields next page_iterator pages calls it_k ->
  next it_k = (calls_k, Failure e) ->
  Forall2 page_sizes pages listing ->
  (List.length pages < fuel)%nat ->
  for_page next fuel page_iterator 0 = (map S3 (calls ++ calls_k), Raise e).
Proof.
  intros Hy Hfail Hpages Hfuel.
  replace fuel with (List.length pages + S (fuel - S (List.length pages)))%nat by lia.
  rewrite (for_page_yields next _ _ _ _ _ Hy Hpages).
  rewrite (for_page_failure next _ _ _ _ _ Hfail). simpl.
  now rewrite map_app.
Qed.

(** C1, as amended.  For every listing with N pages (N >= 0) in which every
    page carries its list of objects, [Contents], with non-negative sizes
    whose total is at most [max_total], [get_s3_bucket_size_bytes] returns
    exactly the sum of all the sizes, once it has asked the iterator N + 1
    times.  A page that the service sends without [Contents], as it does for
    a page without objects, is not such a page. *)
Theorem aggregate_returns_total (pages : list pyobj) (listing : list (list Z))
    (calls calls_end : list s3_call) (it_end : I) (fuel : nat) :
  yields next page_iterator pages calls it_end ->
  next it_end = (calls_end, StopIteration) ->
  Forall2 page_sizes pages listing ->
  nonnegative listing ->
  total_bytes listing <= max_total ->
  (List.length pages < fuel)%nat ->
  aggregate fuel =
  (map S3 (calls ++ calls_end)
     ++ [print s3_bucket_name {| num := total_bytes listing; den := 1024 * 1024 |}],
   Return (total_bytes listing)).
Proof.
  intros Hy Hstop Hpages Hnonneg Hmax Hfuel.
  rewrite (aggregate_loop_return _ _ _ (for_page_listing _ _ _ _ _ _ Hy Hstop Hpages Hfuel)).
  pose proof (total_bytes_nonneg _ Hnonneg) as H0.
  destruct (Z.ltb_spec max_total (Z.abs (total_bytes listing))) as [Hlt | _].
  - rewrite Z.abs_eq in Hlt by assumption. lia.
  - reflexivity.
Qed.

(** C3, as amended.  When a request for a page raises (the service cannot be
    reached, or rejects the credentials), [get_s3_bucket_size_bytes] ends
    with that exception, unchanged; when a page comes with an object that has
    no [Size], it ends with the interpreter's [KeyError], which is not an
    error of the listing stage. *)
Theorem aggregate_failures (pages : list pyobj) (listing : list (list Z))
    (calls : list s3_call) (it_k : I) (fuel : nat) :
  yields next page_iterator pages calls it_k ->
  Forall2 page_sizes pages listing ->
  (List.length pages < fuel)%nat ->
  (forall calls_k e,
      next it_k = (calls_k, Failure e) ->
      snd (aggregate fuel) = Raise e) /\
  (forall calls_k page rest before sizes item after,
      next it_k = (calls_k, Yield page rest) ->
      getitem page "Contents" = Return (VList (before ++ item :: after)) ->
      Forall2 object_size before sizes ->
      getitem item "Size" = Raise (KeyError "Size") ->
      snd (aggregate fuel) = Raise (KeyError "Size") /\
      listing_error (KeyError "Size") = false).
Proof.
  intros Hy Hpages Hfuel. split.
  - intros calls_k e Hfail.
    now rewrite (aggregate_loop_raise _ _ _
                   (for_page_listing_failure _ _ _ _ _ _ _ Hy Hfail Hpages Hfuel)).
  - intros calls_k page rest before sizes item after Hnext Hcontents Hbefore Hitem.
    split; [| reflexivity].
    assert (Hpage : forall total_size, sum_page page total_size = Raise (KeyError "Size")).
    { intro total_size. unfold sum_page. rewrite Hcontents. simpl.
      now apply for_item_no_size with (sizes := sizes). }
    assert (Hloop : for_page next fuel page_iterator 0 =
                    (map S3 (calls ++ calls_k), Raise (KeyError "Size"))).
    { replace fuel with (List.length pages + S (fuel - S (List.length pages)))%nat by lia.
      rewrite (for_page_yields next _ _ _ _ _ Hy Hpages).
      rewrite (for_page_yield next _ _ _ _ _ _ Hnext), Hpage. simpl.
      now rewrite map_app. }
    now rewrite (aggregate_loop_raise _ _ _ Hloop).
Qed.

(** C4.  The sum never wraps and is never cut: whatever
    [get_s3_bucket_size_bytes] returns is the exact total.  The totals it can
    return reach beyond [2^63], up to [max_total]; for every total above
    [max_total] it raises [OverflowError]. *)
Theorem overflow_boundary (pages : list pyobj) (listing : list (list Z))
    (calls calls_end : list s3_call) (it_end : I) (fuel : nat) :
  yields next page_iterator pages calls it_end ->
  next it_end = (calls_end, StopIteration) ->
  Forall2 page_sizes pages listing ->
  (List.length pages < fuel)%nat ->
  2 ^ 63 <= max_total /\
  (max_total < total_bytes listing -> snd (aggregate fuel) = Raise OverflowError) /\
  (forall total_size, snd (aggregate fuel) = Return total_size ->
                      total_size = total_bytes listing).
Proof.
  intros Hy Hstop Hpages Hfuel.
  rewrite (aggregate_loop_return _ _ _ (for_page_listing _ _ _ _ _ _ Hy Hstop Hpages Hfuel)).
  split; [exact max_total_range |].
  destruct (Z.ltb_spec max_total (Z.abs (total_bytes listing))) as [Hlt | Hle]; simpl.
  - split; [reflexivity | discriminate].
  - split; [lia | congruence].
Qed.

(** C6.  When a request for a page fails, [get_s3_bucket_size_bytes] ends
    with that failure at once: the pages summed before it give no result, the
    failed request is the last call made, and it is made once. *)
Theorem fail_fast (pages : list pyobj) (listing : list (list Z))
    (calls calls_k : list s3_call) (it_k : I) (e : exn) (fuel : nat) :
  yields next page_iterator pages calls it_k ->
  Forall2 page_sizes pages listing ->
  next it_k = (calls_k, Failure e) ->
  (List.length pages < fuel)%nat ->
  aggregate fuel = (map S3 (calls ++ calls_k), Raise e).
Proof.
  intros Hy Hpages Hfail Hfuel.
  exact (aggregate_loop_raise _ _ _
           (for_page_listing_failure _ _ _ _ _ _ _ Hy Hfail Hpages Hfuel)).
Qed.

End Aggregation.

(** ** [send_metric] *)

Section Report.

Variable sdk : otel_call -> option exn.
Variables otel_service_name otel_endpoint otel_metric_name : string.
Variable otel_attributes : pyobj.
Variable value : Z.

#[local] Abbreviation report :=
  (send_metric sdk otel_service_name otel_endpoint otel_metric_name
     otel_attributes value).
#[local] Abbreviation calls :=
  (sdk_calls otel_service_name otel_endpoint otel_metric_name otel_attributes value).

Lemma bind_ret_r (m : M unit) : bind m (fun _ => ret tt) = m.
Proof.
  destruct m as [t [[] | e |]]; simpl; try reflexivity. now rewrite app_nil_r.
Qed.

Lemma send_metric_attempt : report = attempt sdk calls.
Proof. unfold send_metric, sdk_calls. cbn [attempt]. now rewrite bind_ret_r. Qed.

(** The calls are made in order; the first that raises is the last one made
    and its exception is the outcome; when none raises all are made. *)
Lemma attempt_run (l : list otel_call) :
  (exists before c e after,
      l = before ++ c :: after /\
      (forall c', In c' before -> sdk c' = None) /\
      sdk c = Some e /\
      attempt sdk l = (map Otel (before ++ [c]), Raise e)) \/
  ((forall c, In c l -> sdk c = None) /\ attempt sdk l = (map Otel l, Return tt)).
Proof.
  induction l as [| c l IH]; cbn [attempt].
  - right. split; [intros c [] | reflexivity].
  - unfold sdk_call, emit, lift. destruct (sdk c) as [e |] eqn:Hc.
    + left. exists [], c, e, l. repeat split; [intros c' [] | assumption].
    + destruct IH as [(before & c1 & e & after & -> & Hbefore & Hc1 & Hrun) | [Hall Hrun]].
      * left. exists (c :: before), c1, e, after. rewrite Hrun.
        repeat split; try assumption.
        intros c' [<- | Hin]; [assumption | now apply Hbefore].
      * right. rewrite Hrun. split; [| reflexivity].
        intros c' [<- | Hin]; [assumption | now apply Hall].
Qed.

Lemma send_metric_run :
  (exists before c e after,
      calls = before ++ c :: after /\
      (forall c', In c' before -> sdk c' = None) /\
      sdk c = Some e /\
      report = (map Otel (before ++ [c]), Raise e)) \/
  ((forall c, In c calls -> sdk c = None) /\ report = (map Otel calls, Return tt)).
Proof. rewrite send_metric_attempt. apply attempt_run. Qed.

(** The calls made are the first ones of [sdk_calls]. *)
Lemma send_metric_prefix : exists rest, map Otel calls = fst report ++ rest.
Proof.
  destruct send_metric_run as [(before & c & e & after & Hcalls & _ & _ & ->) | [_ ->]].
  - exists (map Otel after). rewrite Hcalls. cbn [fst].
    now rewrite !map_app, <- app_assoc.
  - exists []. cbn [fst]. now rewrite app_nil_r.
Qed.

Lemma send_metric_at_most_once (p : event -> bool) :
  (List.length (filter p (fst report)) <= List.length (filter p (map Otel calls)))%nat.
Proof.
  destruct send_metric_prefix as [rest ->]. rewrite filter_app, length_app. lia.
Qed.

Lemma send_metric_observation (amount : Z) (attributes : pyobj) :
  In (Otel (gauge_set amount attributes)) (fst report) ->
  attributes = otel_attributes /\ amount = value.
Proof.
  intro Hin.
  assert (Hall : In (Otel (gauge_set amount attributes)) (map Otel calls)).
  { destruct send_metric_prefix as [rest ->]. apply in_or_app. now left. }
  simpl in Hall.
  repeat (destruct Hall as [Hev | Hall]; [try discriminate Hev |]).
  - injection Hev as -> ->. now split.
  - contradiction.
Qed.

Lemma send_metric_returned :
  snd report = Return tt ->
  fst report = map Otel calls /\ (forall c, In c calls -> sdk c = None).
Proof.
  destruct send_metric_run as [(before & c & e & after & _ & _ & _ & ->) | [Hall ->]].
  - discriminate.
  - now split.
Qed.

Lemma send_metric_all_return :
  (forall c, In c calls -> sdk c = None) -> snd report = Return tt.
Proof.
  intro Hall.
  destruct send_metric_run as [(before & c & e & after & Hc & _ & Hs & _) | [_ ->]];
    [| reflexivity].
  rewrite Hall in Hs; [discriminate |]. rewrite Hc. apply in_or_app. right. now left.
Qed.

Lemma send_metric_only_otel : filter is_otel (fst report) = fst report.
Proof.
  assert (H : forall l, filter is_otel (map Otel l) = map Otel l).
  { induction l as [| c l IH]; simpl; [reflexivity | now rewrite IH]. }
  destruct send_metric_run as [(before & c & e & after & _ & _ & _ & ->) | [_ ->]];
    apply H.
Qed.

(** C8, as amended.  [send_metric] makes the calls of lines 55 to 68 in
    order and ends at the first that raises, with its exception.  When it
    returns it has registered exactly one gauge, named [otel_metric_name],
    set it exactly once and flushed exactly once, as its last call, and every
    call has returned; it never registers, sets or flushes twice.  It returns
    whenever no call raises: what the flush returns is dropped. *)
Theorem single_flush :
  (List.length (filter is_create_gauge (fst report)) <= 1)%nat /\
  (List.length (filter is_gauge_set (fst report)) <= 1)%nat /\
  (List.length (filter is_force_flush (fst report)) <= 1)%nat /\
  (snd report = Return tt ->
   filter is_create_gauge (fst report) =
     [Otel (create_gauge otel_metric_name "Size of S3 bucket in bytes")] /\
   filter is_gauge_set (fst report) = [Otel (gauge_set value otel_attributes)] /\
   filter is_force_flush (fst report) = [Otel force_flush] /\
   (exists before, fst report = before ++ [Otel force_flush]) /\
   (forall c, In c calls -> sdk c = None)) /\
  (forall e,
      snd report = Raise e ->
      exists before c after,
        calls = before ++ c :: after /\
        fst report = map Otel (before ++ [c]) /\
        sdk c = Some e /\
        (forall c', In c' before -> sdk c' = None)) /\
  ((forall c, In c calls -> sdk c = None) -> snd report = Return tt) /\
  snd report <> Running.
Proof.
  split; [apply (send_metric_at_most_once is_create_gauge) |].
  split; [apply (send_metric_at_most_once is_gauge_set) |].
  split; [apply (send_metric_at_most_once is_force_flush) |].
  split; [| split; [| split]].
  - intro Hret. destruct (send_metric_returned Hret) as [-> Hall].
    repeat split; try assumption.
    now exists (map Otel (removelast calls)).
  - intros e He.
    destruct send_metric_run as [(before & c & e' & after & Hc & Hb & Hs & Hr) | [_ Hr]];
      rewrite Hr in *; simpl in He; [| discriminate].
    injection He as ->. now exists before, c, after.
  - exact send_metric_all_return.
  - destruct send_metric_run as [(before & c & e & after & _ & _ & _ & ->) | [_ ->]];
      discriminate.
Qed.

(** C9.  Whatever observation [send_metric] records carries the attributes
    it was given, as they are: the same entries, in the same order, nothing
    added and nothing taken away; and when [send_metric] returns it has
    recorded exactly that one observation. *)
Theorem attributes_verbatim :
  (forall amount attributes,
      In (Otel (gauge_set amount attributes)) (fst report) ->
      attributes = otel_attributes /\ amount = value) /\
  (snd report = Return tt ->
   filter is_gauge_set (fst report) = [Otel (gauge_set value otel_attributes)]).
Proof.
  split; [exact send_metric_observation |].
  intro Hret. now destruct (send_metric_returned Hret) as [-> _].
Qed.

End Report.

(** ** [collect_metric] *)

Lemma requests_not_otel (calls : list s3_call) :
  filter is_otel (map S3 calls) = [].
Proof. induction calls; simpl; auto. Qed.

Lemma not_otel_not_in (tr : trace) :
  filter is_otel tr = [] -> forall c, ~ In (Otel c) tr.
Proof.
  induction tr as [| ev tr IH]; intros Hno c; [intros [] |].
  destruct ev as [c' | b m | c']; simpl in Hno; try discriminate;
    intros [Hev | Hin]; try discriminate; now apply (IH Hno c).
Qed.

Lemma not_otel_no_observation (tr : trace) :
  filter is_otel tr = [] -> filter is_gauge_set tr = [].
Proof.
  induction tr as [| ev tr IH]; intro Hno; [reflexivity |].
  destruct ev as [c | b m | c]; simpl in *; try discriminate; now apply IH.
Qed.

Section Pipeline.

Context {I : Type}.
Variable paginate : client -> string -> I.
Variable next : I -> list s3_call * step I.
Variable sdk : otel_call -> option exn.
Variables s3_endpoint_url s3_region_name s3_aws_access_key_id
  s3_aws_secret_access_key s3_bucket_name : string.
Variables otel_service_name otel_endpoint otel_metric_name : string.
Variable otel_attributes : pyobj.

#[local] Abbreviation page_iterator :=
  (paginate (session_client s3_endpoint_url s3_region_name s3_aws_access_key_id
               s3_aws_secret_access_key) s3_bucket_name).
#[local] Abbreviation aggregate fuel :=
  (get_s3_bucket_size_bytes paginate next fuel s3_endpoint_url s3_region_name
     s3_aws_access_key_id s3_aws_secret_access_key s3_bucket_name).
#[local] Abbreviation collect fuel :=
  (collect_metric paginate next sdk fuel s3_endpoint_url s3_region_name
     s3_aws_access_key_id s3_aws_secret_access_key s3_bucket_name
     otel_service_name otel_endpoint otel_metric_name otel_attributes).

Lemma for_page_not_otel (fuel : nat) :
  forall (it : I) (total_size : Z),
    filter is_otel (fst (for_page next fuel it total_size)) = [].
Proof.
  induction fuel as [| fuel IH]; intros it total_size; [reflexivity |].
  destruct (next it) as [calls [page rest | | e]] eqn:Hnext.
  - rewrite (for_page_yield next _ _ _ _ _ _ Hnext).
    destruct (sum_page page total_size) as [total_size' | e |]; simpl.
    + destruct (for_page next fuel rest total_size') as [tr r] eqn:Hrest. simpl.
      rewrite filter_app, requests_not_otel.
      specialize (IH rest total_size'). now rewrite Hrest in IH.
    + apply requests_not_otel.
    + apply requests_not_otel.
  - rewrite (for_page_stop next _ _ _ _ Hnext). apply requests_not_otel.
  - rewrite (for_page_failure next _ _ _ _ _ Hnext). apply requests_not_otel.
Qed.

(** What a run of [get_s3_bucket_size_bytes] comes down to: its loop, then
    line 43, then the message. *)
Lemma aggregate_cases (fuel : nat) :
  (exists tr e, for_page next fuel page_iterator 0 = (tr, Raise e) /\
                aggregate fuel = (tr, Raise e)) \/
  (exists tr, for_page next fuel page_iterator 0 = (tr, Running) /\
              aggregate fuel = (tr, Running)) \/
  (exists tr total_size,
      for_page next fuel page_iterator 0 = (tr, Return total_size) /\
      aggregate fuel = (tr, Raise OverflowError)) \/
  (exists tr total_size,
      for_page next fuel page_iterator 0 = (tr, Return total_size) /\
      aggregate fuel =
      (tr ++ [print s3_bucket_name {| num := total_size; den := 1024 * 1024 |}],
       Return total_size)).
Proof.
  destruct (for_page next fuel page_iterator 0) as [tr [total_size | e |]] eqn:Hloop.
  - pose proof (aggregate_loop_return paginate next _ _ _ _ _ _ _ _ Hloop) as H.
    destruct (max_total <? Z.abs total_size).
    + right; right; left. now exists tr, total_size.
    + right; right; right. now exists tr, total_size.
  - left. exists tr, e. split; [reflexivity |].
    now apply aggregate_loop_raise.
  - right; left. exists tr. split; [reflexivity |].
    now apply aggregate_loop_running.
Qed.

Lemma aggregate_not_otel (fuel : nat) :
  filter is_otel (fst (aggregate fuel)) = [].
Proof.
  pose proof (for_page_not_otel fuel page_iterator 0) as Hloop.
  destruct (aggregate_cases fuel)
    as [(tr & e & Hl & ->) | [(tr & Hl & ->) | [(tr & t & Hl & ->) | (tr & t & Hl & ->)]]];
    rewrite Hl in Hloop; simpl in *; auto.
  rewrite filter_app, Hloop. reflexivity.
Qed.

(** C7.  When [get_s3_bucket_size_bytes] fails, [collect_metric] fails the
    same way with the same calls made, none of which is a call of the
    telemetry SDK: [send_metric] is not reached. *)
Theorem no_export_on_failure (fuel : nat) (tr : trace) (e : exn) :
  aggregate fuel = (tr, Raise e) ->
  collect fuel = (tr, Raise e) /\ filter is_otel (fst (collect fuel)) = [].
Proof.
  intro H. pose proof (aggregate_not_otel fuel) as Hno.
  unfold collect_metric. rewrite H in *. simpl in *. auto.
Qed.

(** C10.  When [get_s3_bucket_size_bytes] returns, what it returns is the
    integer total of its loop, and [collect_metric] hands that integer to
    [send_metric]: an observation that [collect_metric] records has it as its
    amount, and there is exactly that one when [collect_metric] returns; the
    quotient by [1024 * 1024] is only in the message. *)
Theorem reports_exact_total (fuel : nat) (tr : trace) (s3_size_bytes : Z) :
  aggregate fuel = (tr, Return s3_size_bytes) ->
  (exists tr_loop,
      for_page next fuel page_iterator 0 = (tr_loop, Return s3_size_bytes) /\
      tr = tr_loop
             ++ [print s3_bucket_name {| num := s3_size_bytes; den := 1024 * 1024 |}]) /\
  collect fuel =
    (tr ++ fst (send_metric sdk otel_service_name otel_endpoint otel_metric_name
                  otel_attributes s3_size_bytes),
     snd (send_metric sdk otel_service_name otel_endpoint otel_metric_name
            otel_attributes s3_size_bytes)) /\
  (forall amount attributes,
      In (Otel (gauge_set amount attributes)) (fst (collect fuel)) ->
      amount = s3_size_bytes /\ attributes = otel_attributes) /\
  (snd (collect fuel) = Return tt ->
   filter is_gauge_set (fst (collect fuel)) =
     [Otel (gauge_set s3_size_bytes otel_attributes)]).
Proof.
  intro H.
  assert (Hno : filter is_otel tr = []).
  { pose proof (aggregate_not_otel fuel) as Hno. now rewrite H in Hno. }
  assert (Hcollect : collect fuel =
            (tr ++ fst (send_metric sdk otel_service_name otel_endpoint otel_metric_name
                          otel_attributes s3_size_bytes),
             snd (send_metric sdk otel_service_name otel_endpoint otel_metric_name
                    otel_attributes s3_size_bytes))).
  { unfold collect_metric. now rewrite H, bind_return. }
  split; [| split; [exact Hcollect | rewrite Hcollect; cbn [fst snd]; split]].
  - destruct (aggregate_cases fuel)
      as [(t & e & Hl & E) | [(t & Hl & E) | [(t & v & Hl & E) | (t & v & Hl & E)]]];
      rewrite E in H; inversion H; subst.
    now exists t.
  - intros amount attributes Hin. apply in_app_or in Hin. destruct Hin as [Hin | Hin].
    + exfalso. exact (not_otel_not_in _ Hno _ Hin).
    + destruct (send_metric_observation _ _ _ _ _ _ _ _ Hin). now split.
  - intro Hret. rewrite filter_app, (not_otel_no_observation _ Hno).
    now destruct (send_metric_returned _ _ _ _ _ _ Hret) as [-> _].
Qed.

End Pipeline.

(** ** Pagination by continuation token *)

Lemma requests_are_requests (calls : list s3_call) :
  filter is_request (map S3 calls) = map S3 calls.
Proof. induction calls; simpl; congruence. Qed.

Section Pagination.

Variable ListObjects : client -> string -> option string -> reply.
Variables s3_endpoint_url s3_region_name s3_aws_access_key_id
  s3_aws_secret_access_key s3_bucket_name : string.

#[local] Abbreviation s3 :=
  (session_client s3_endpoint_url s3_region_name s3_aws_access_key_id
     s3_aws_secret_access_key).
#[local] Abbreviation aggregate fuel :=
  (get_s3_bucket_size_bytes boto_paginate (boto_next ListObjects) fuel
     s3_endpoint_url s3_region_name s3_aws_access_key_id s3_aws_secret_access_key
     s3_bucket_name).
#[local] Abbreviation loop fuel cursor total_size :=
  (for_page (boto_next ListObjects) fuel (s3, s3_bucket_name, cursor) total_size).
#[local] Abbreviation request token := (list_objects_v2 s3_bucket_name token).

(** Every page the service answers with is a list of objects with sizes. *)
Hypothesis well_formed :
  forall token page,
    ListObjects s3 s3_bucket_name token = Page page -> exists sizes, page_sizes page sizes.

Lemma loop_requests (fuel : nat) :
  forall (token : option string) (total_size : Z),
    fst (loop fuel (Pending token) total_size) =
    map (fun t => S3 (request t)) (token_chain ListObjects s3 s3_bucket_name fuel token).
Proof.
  induction fuel as [| fuel IH]; intros token total_size; [reflexivity |].
  cbn [token_chain].
  destruct (ListObjects s3 s3_bucket_name token) as [page | e] eqn:Hreply.
  - destruct (well_formed _ _ Hreply) as [sizes Hsizes].
    erewrite for_page_yield by (cbn [boto_next]; rewrite Hreply; reflexivity).
    rewrite (sum_page_sizes _ _ _ Hsizes), bind_return. cbn [fst map app].
    destruct (next_token page) as [token' |].
    + now rewrite IH.
    + destruct fuel; reflexivity.
  - erewrite for_page_failure by (cbn [boto_next]; rewrite Hreply; reflexivity).
    reflexivity.
Qed.

Lemma loop_endless (fuel : nat) :
  (forall token, exists page token',
      ListObjects s3 s3_bucket_name token = Page page /\ next_token page = Some token') ->
  forall (token : option string) (total_size : Z),
    snd (loop fuel (Pending token) total_size) = Running /\
    List.length (token_chain ListObjects s3 s3_bucket_name fuel token) = fuel.
Proof.
  intro Hmore. induction fuel as [| fuel IH]; intros token total_size; [now split |].
  destruct (Hmore token) as (page & token' & Hreply & Htoken).
  destruct (well_formed _ _ Hreply) as [sizes Hsizes].
  erewrite for_page_yield by (cbn [boto_next]; rewrite Hreply; reflexivity).
  rewrite (sum_page_sizes _ _ _ Hsizes), bind_return. cbn [snd token_chain].
  rewrite Hreply, Htoken. cbn [List.length].
  destruct (IH (Some token') (total_size + sum_sizes sizes)) as [-> ->]. now split.
Qed.

Lemma loop_single_page (fuel : nat) (page : pyobj) (total_size : Z) :
  ListObjects s3 s3_bucket_name None = Page page ->
  next_token page = None ->
  exists total_size',
    loop (S (S fuel)) (Pending None) total_size = ([S3 (request None)], Return total_size').
Proof.
  intros Hreply Htoken. destruct (well_formed _ _ Hreply) as [sizes Hsizes].
  exists (total_size + sum_sizes sizes).
  erewrite for_page_yield by (cbn [boto_next]; rewrite Hreply; reflexivity).
  rewrite (sum_page_sizes _ _ _ Hsizes), bind_return, Htoken.
  reflexivity.
Qed.

Lemma page_total_sizes (page : pyobj) (sizes : list Z) :
  page_sizes page sizes -> page_total page = sum_sizes sizes.
Proof. intro H. unfold page_total. now rewrite (sum_page_sizes _ _ _ H). Qed.

Lemma loop_total (fuel : nat) :
  forall (token : option string) (total_size : Z) (tr : trace) (result : Z),
    loop fuel (Pending token) total_size = (tr, Return result) ->
    result = total_size
             + fold_right (fun page acc => page_total page + acc) 0
                 (page_chain ListObjects s3 s3_bucket_name fuel token).
Proof.
  induction fuel as [| fuel IH]; intros token total_size tr result; [discriminate |].
  cbn [page_chain].
  destruct (ListObjects s3 s3_bucket_name token) as [page | e] eqn:Hreply.
  - destruct (well_formed _ _ Hreply) as [sizes Hsizes].
    erewrite for_page_yield by (cbn [boto_next]; rewrite Hreply; reflexivity).
    rewrite (sum_page_sizes _ _ _ Hsizes), bind_return.
    cbn [fold_right]. rewrite (page_total_sizes _ _ Hsizes).
    destruct (next_token page) as [token' |].
    + destruct (loop fuel (Pending (Some token')) (total_size + sum_sizes sizes))
        as [tr' r] eqn:Hrest.
      intro H. injection H as _ ->.
      rewrite (IH _ _ _ _ Hrest). lia.
    + destruct fuel; [discriminate |].
      intro H. injection H as _ <-. cbn [fold_right]. lia.
  - erewrite for_page_failure by (cbn [boto_next]; rewrite Hreply; reflexivity).
    discriminate.
Qed.

Lemma aggregate_requests (fuel : nat) :
  filter is_request (fst (aggregate fuel)) = fst (loop fuel (Pending None) 0).
Proof.
  assert (Hloop : filter is_request (fst (loop fuel (Pending None) 0))
                  = fst (loop fuel (Pending None) 0)).
  { rewrite loop_requests, <- (map_map (fun t => request t) S3). apply requests_are_requests. }
  destruct (aggregate_cases boto_paginate (boto_next ListObjects)
              s3_endpoint_url s3_region_name s3_aws_access_key_id
              s3_aws_secret_access_key s3_bucket_name fuel)
    as [(tr & e & Hl & E) | [(tr & Hl & E) | [(tr & t & Hl & E) | (tr & t & Hl & E)]]];
    unfold boto_paginate in Hl; rewrite E; rewrite Hl in *; simpl in *; auto.
  rewrite filter_app, Hloop. simpl. apply app_nil_r.
Qed.

(** C5.  [get_s3_bucket_size_bytes] on the paginator requests the pages one
    after the other, each once, the first with no token and each later one
    with the token that came with the page before it.  While every page comes
    with a token it goes on requesting; when the first page comes with none,
    it has requested that one page and is done.  What it returns is the
    sum over the pages that came back, each counted once. *)
Theorem pagination (fuel : nat) :
  filter is_request (fst (aggregate fuel)) =
    map (fun token => S3 (request token))
        (token_chain ListObjects s3 s3_bucket_name fuel None) /\
  (forall total_size,
      snd (aggregate fuel) = Return total_size ->
      total_size = fold_right (fun page acc => page_total page + acc) 0
                     (page_chain ListObjects s3 s3_bucket_name fuel None)) /\
  ((forall token, exists page token',
       ListObjects s3 s3_bucket_name token = Page page /\
       next_token page = Some token') ->
   snd (aggregate fuel) = Running /\
   List.length (filter is_request (fst (aggregate fuel))) = fuel) /\
  (forall page,
      ListObjects s3 s3_bucket_name None = Page page ->
      next_token page = None ->
      (2 <= fuel)%nat ->
      filter is_request (fst (aggregate fuel)) = [S3 (request None)] /\
      snd (aggregate fuel) <> Running).
Proof.
  rewrite aggregate_requests, loop_requests.
  split; [reflexivity | split; [| split]].
  - intros total_size H.
    destruct (aggregate_cases boto_paginate (boto_next ListObjects)
                s3_endpoint_url s3_region_name s3_aws_access_key_id
                s3_aws_secret_access_key s3_bucket_name fuel)
      as [(tr & e & Hl & E) | [(tr & Hl & E) | [(tr & t & Hl & E) | (tr & t & Hl & E)]]];
      rewrite E in H; simpl in H; try discriminate.
    injection H as <-. now apply (loop_total _ _ _ _ _ Hl).
  - intro Hmore. destruct (loop_endless fuel Hmore None 0) as [Hrun Hlen].
    split; [| now rewrite length_map].
    destruct (loop fuel (Pending None) 0) as [tr r] eqn:Hloop. simpl in Hrun. subst r.
    now rewrite (aggregate_loop_running boto_paginate _ _ _ _ _ _ _ _ Hloop).
  - intros page Hreply Htoken Hfuel.
    destruct fuel as [| [| fuel]]; try lia.
    destruct (loop_single_page fuel page 0 Hreply Htoken) as [total_size Hloop].
    split.
    + cbn [token_chain]. now rewrite Hreply, Htoken.
    + rewrite (aggregate_loop_return boto_paginate _ _ _ _ _ _ _ _ _ Hloop).
      destruct (max_total <? Z.abs total_size); discriminate.
Qed.

End Pagination.

(** ** The claims on recorded listings *)

Lemma tape_yields (pages : list pyobj) (rest : list reply) :
  yields tape_next (map Page pages ++ rest) pages [] rest.
Proof.
  induction pages as [| page pages IH]; simpl.
  - constructor.
  - now apply (yields_cons tape_next _ [] page (map Page pages ++ rest) pages [] rest).
Qed.

#[local] Abbreviation on_tape tape fuel :=
  (get_s3_bucket_size_bytes (fun _ _ => tape) tape_next fuel
     "https://storage.yandexcloud.net" "ru-central1" "a1b2c3d4aqweqwe"
     "Yer123sdf456sdf790" "some-name").

#[local] Abbreviation collect_on_tape tape sdk fuel :=
  (collect_metric (fun _ _ => tape) tape_next sdk fuel
     "https://storage.yandexcloud.net" "ru-central1" "a1b2c3d4aqweqwe"
     "Yer123sdf456sdf790" "some-name"
     "s3_monitoring" "http://localhost:4317" "s3_size" example_attributes).

#[local] Abbreviation on_service service fuel :=
  (get_s3_bucket_size_bytes boto_paginate (boto_next service) fuel
     "https://storage.yandexcloud.net" "ru-central1" "a1b2c3d4aqweqwe"
     "Yer123sdf456sdf790" "some-name").

(** The two pages, of 1048576 and 2097152 and of 5242880 bytes, sum to
    8388608. *)
Lemma aggregate_returns_total_witness :
  on_tape two_pages 3 =
  ([print "some-name" {| num := 8388608; den := 1024 * 1024 |}], Return 8388608).
Proof.
  apply (aggregate_returns_total (fun _ _ => two_pages) tape_next _ _ _ _ _
           [page_of [1048576; 2097152]; page_of [5242880]]
           [[1048576; 2097152]; [5242880]] [] [] [] 3).
  - exact (tape_yields [page_of [1048576; 2097152]; page_of [5242880]] []).
  - reflexivity.
  - repeat constructor; apply page_of_sizes.
  - repeat constructor; lia.
  - apply Z.leb_le. vm_compute. reflexivity.
  - cbn [List.length]. lia.
Defined.

(** One object of [2^1034] bytes: line 43 raises, and the sum is not
    returned.  Three pages of which the second has no objects, as the
    service sends them: line 39 raises, and the sum, 8388608, is not
    returned. *)
Lemma aggregate_total_overflow :
  nonnegative [[2 ^ 1034]] /\
  snd (on_tape huge_object 2) = Raise OverflowError /\
  snd (on_tape huge_object 2) <> Return (total_bytes [[2 ^ 1034]]) /\
  snd (on_tape missing_contents_second 4) = Raise (KeyError "Contents") /\
  snd (on_tape missing_contents_second 4)
    <> Return (total_bytes [[1048576; 2097152]; []; [5242880]]).
Proof.
  split; [| split; [| split; [| split]]].
  - repeat constructor. apply Z.leb_le. vm_compute. reflexivity.
  - vm_compute. reflexivity.
  - vm_compute. discriminate.
  - vm_compute. reflexivity.
  - vm_compute. discriminate.
Qed.

(** C2.  A bucket without objects is listed as one page without [Contents]:
    [get_s3_bucket_size_bytes] ends with a [KeyError]. *)
Example empty_bucket_raises_key_error :
  on_tape empty_bucket 2 = ([], Raise (KeyError "Contents")).
Proof. vm_compute. reflexivity. Qed.

(** A rejected request for the second page, and an object without [Size]. *)
Lemma aggregate_failures_witness :
  snd (on_tape rejected_second_page 4) = Raise (ClientError "AccessDenied") /\
  snd (on_tape object_without_size 4) = Raise (KeyError "Size") /\
  listing_error (KeyError "Size") = false.
Proof.
  split.
  - apply (proj1 (aggregate_failures (fun _ _ => rejected_second_page) tape_next
                    _ _ _ _ _ [page_of [1048576; 2097152]] [[1048576; 2097152]] []
                    [Error (ClientError "AccessDenied"); Page (page_of [5242880])] 4
                    (tape_yields [page_of [1048576; 2097152]]
                       [Error (ClientError "AccessDenied"); Page (page_of [5242880])])
                    ltac:(repeat constructor; apply page_of_sizes) ltac:(cbn [List.length]; lia))
            []).
    reflexivity.
  - apply (proj2 (aggregate_failures (fun _ _ => object_without_size) tape_next
                    _ _ _ _ _ [] [] [] object_without_size 4
                    (tape_yields [] object_without_size)
                    ltac:(constructor) ltac:(cbn [List.length]; lia))
            [] (VDict [("Contents", VList [obj 1; VDict [("Key", VStr "k")]; obj 2])])
            [] [obj 1] [1] (VDict [("Key", VStr "k")]) [obj 2]).
    + reflexivity.
    + reflexivity.
    + repeat constructor.
    + reflexivity.
Defined.

(** A page with an object that has no [Size] ends the aggregation with an
    exception that is not an error of the listing stage. *)
Lemma malformed_page_not_listing_error :
  exists e, snd (on_tape object_without_size 2) = Raise e /\ listing_error e = false.
Proof. exists (KeyError "Size"). split; vm_compute; reflexivity. Qed.

(** A total of [2^1034] bytes is above [max_total]. *)
Lemma overflow_boundary_witness :
  snd (on_tape huge_object 2) = Raise OverflowError.
Proof.
  apply (proj1 (proj2 (overflow_boundary (fun _ _ => huge_object) tape_next
                         _ _ _ _ _ [page_of [2 ^ 1034]] [[2 ^ 1034]] [] [] [] 2
                         (tape_yields [page_of [2 ^ 1034]] []) eq_refl
                         ltac:(repeat constructor; apply page_of_sizes)
                         ltac:(cbn [List.length]; lia)))).
  vm_compute. reflexivity.
Defined.

Lemma endless_well_formed (s3 : client) (bucket : string) (token : option string)
    (page : pyobj) :
  endless s3 bucket token = Page page -> exists sizes, page_sizes page sizes.
Proof.
  intro H. injection H as <-. exists [], []. split; [reflexivity | constructor].
Qed.

Lemma single_page_well_formed (sizes : list Z) (s3 : client) (bucket : string)
    (token : option string) (page : pyobj) :
  single_page sizes s3 bucket token = Page page -> exists sizes', page_sizes page sizes'.
Proof. intro H. injection H as <-. exists sizes. apply page_of_sizes. Qed.

(** On the service that always sends a token the aggregation is still
    running after five requests; on a single page it sends one request. *)
Lemma pagination_witness :
  (snd (on_service endless 5) = Running /\
   List.length (filter is_request (fst (on_service endless 5))) = 5%nat) /\
  filter is_request (fst (on_service (single_page [1048576; 2097152]) 2)) =
    [S3 (list_objects_v2 "some-name" None)].
Proof.
  split.
  - apply (proj1 (proj2 (proj2 (pagination endless _ _ _ _ _
                                  (endless_well_formed _ _) 5)))).
    intro token. eexists. eexists. split; reflexivity.
  - apply (proj2 (proj2 (proj2 (pagination (single_page [1048576; 2097152]) _ _ _ _ _
                                  (single_page_well_formed _ _ _) 2)))
             (page_of [1048576; 2097152]));
      [reflexivity | reflexivity | lia].
Defined.

(** The first page is summed, the request for the second is rejected. *)
Lemma fail_fast_witness :
  on_tape rejected_second_page 4 = ([], Raise (ClientError "AccessDenied")).
Proof.
  apply (fail_fast (fun _ _ => rejected_second_page) tape_next _ _ _ _ _
           [page_of [1048576; 2097152]] [[1048576; 2097152]] [] []
           [Error (ClientError "AccessDenied"); Page (page_of [5242880])]
           (ClientError "AccessDenied") 4).
  - exact (tape_yields [page_of [1048576; 2097152]]
             [Error (ClientError "AccessDenied"); Page (page_of [5242880])]).
  - repeat constructor; apply page_of_sizes.
  - reflexivity.
  - cbn [List.length]. lia.
Defined.

(** The same listing, end to end: no call of the telemetry SDK. *)
Lemma no_export_on_failure_witness :
  collect_on_tape rejected_second_page sdk_returns 4 =
    ([], Raise (ClientError "AccessDenied")) /\
  filter is_otel (fst (collect_on_tape rejected_second_page sdk_returns 4)) = [].
Proof.
  apply (no_export_on_failure (fun _ _ => rejected_second_page) tape_next sdk_returns).
  reflexivity.
Defined.

(** The two pages, end to end: the observation is 8388608, not 8. *)
Lemma reports_exact_total_witness :
  filter is_gauge_set (fst (collect_on_tape two_pages sdk_returns 3)) =
  [Otel (gauge_set 8388608 example_attributes)].
Proof.
  refine (proj2 (proj2 (proj2
            (reports_exact_total (fun _ _ => two_pages) tape_next sdk_returns
               _ _ _ _ _ _ _ _ _ 3
               [print "some-name" {| num := 8388608; den := 1024 * 1024 |}] 8388608
               eq_refl))) _).
  reflexivity.
Defined.

(** With every call returning, [send_metric] makes its nine calls and
    returns. *)
Lemma single_flush_witness :
  filter is_force_flush
    (fst (send_metric sdk_returns "s3_monitoring" "http://localhost:4317" "s3_size"
            example_attributes 8388608)) = [Otel force_flush].
Proof.
  refine (proj1 (proj2 (proj2
            (proj1 (proj2 (proj2 (proj2
               (single_flush sdk_returns "s3_monitoring" "http://localhost:4317"
                  "s3_size" example_attributes 8388608)))) _)))).
  reflexivity.
Defined.

Lemma attributes_verbatim_witness :
  filter is_gauge_set
    (fst (send_metric sdk_returns "s3_monitoring" "http://localhost:4317" "s3_size"
            example_attributes 8388608)) =
  [Otel (gauge_set 8388608 example_attributes)].
Proof.
  refine (proj2 (attributes_verbatim sdk_returns "s3_monitoring"
                   "http://localhost:4317" "s3_size" example_attributes 8388608) _).
  reflexivity.
Defined.

(** With the empty metric name the SDK refuses to register the gauge:
    [send_metric] ends there, with no observation and no flush. *)
Lemma invalid_name_no_flush :
  let report := send_metric sdk_checks_name "s3_monitoring" "http://localhost:4317"
                  EmptyString example_attributes 8388608 in
  snd report = Raise (PyException "invalid instrument name") /\
  filter is_gauge_set (fst report) = [] /\
  filter is_force_flush (fst report) = [].
Proof. repeat split. Qed.

(** The two pages, end to end. *)
Example collect_two_pages :
  collect_on_tape two_pages sdk_returns 3 =
  ([print "some-name" {| num := 8388608; den := 1024 * 1024 |};
    Otel (OTLPMetricExporter "http://localhost:4317");
    Otel PeriodicExportingMetricReader;
    Otel (Resource "s3_monitoring");
    Otel MeterProvider;
    Otel set_meter_provider;
    Otel (get_meter "shared_meter");
    Otel (create_gauge "s3_size" "Size of S3 bucket in bytes");
    Otel (gauge_set 8388608 example_attributes);
    Otel force_flush],
   Return tt).
Proof. vm_compute. reflexivity. Qed.

(** * Further properties of the three functions *)

(** ** One page *)

Lemma for_item_shift (items : list pyobj) :
  forall total_size total_size',
    for_item items total_size' =
    match for_item items total_size with
    | Return v => Return (v - total_size + total_size')
    | Raise e => Raise e
    | Running => Running
    end.
Proof.
  induction items as [| item items IH]; intros t t'; simpl.
  - f_equal. lia.
  - destruct (getitem item "Size") as [size | e |]; simpl; try reflexivity.
    destruct size as [| b | z | s | l | d]; simpl; try reflexivity.
    + rewrite (IH (t + Z.b2z b) (t' + Z.b2z b)).
      destruct (for_item items (t + Z.b2z b)); try reflexivity. f_equal. lia.
    + rewrite (IH (t + z) (t' + z)).
      destruct (for_item items (t + z)); try reflexivity. f_equal. lia.
Qed.

(** What a page does to the total does not depend on the total so far: it
    adds its [page_total], or it raises, whatever was summed before. *)
Lemma sum_page_shift (page : pyobj) (total_size : Z) :
  sum_page page total_size =
  match sum_page page 0 with
  | Return _ => Return (total_size + page_total page)
  | Raise e => Raise e
  | Running => Running
  end.
Proof.
  unfold page_total, sum_page.
  destruct (getitem page "Contents") as [contents | e |]; simpl; try reflexivity.
  destruct (iterate contents) as [items | e |]; simpl; try reflexivity.
  rewrite (for_item_shift items 0 total_size).
  destruct (for_item items 0); try reflexivity. f_equal. lia.
Qed.

(** ** The loop, whatever the pages are *)

Section AnyPages.

Context {I : Type}.
Variable next : I -> list s3_call * step I.

Lemma for_page_only_requests (fuel : nat) :
  forall (it : I) (total_size : Z),
    exists calls, fst (for_page next fuel it total_size) = map S3 calls.
Proof.
  induction fuel as [| fuel IH]; intros it total_size; [now exists [] |].
  destruct (next it) as [calls [page rest | | e]] eqn:Hnext.
  - rewrite (for_page_yield next _ _ _ _ _ _ Hnext).
    destruct (sum_page page total_size) as [total_size' | e |]; simpl.
    + destruct (IH rest total_size') as [calls' Hrest].
      destruct (for_page next fuel rest total_size') as [tr r]. simpl in *. subst tr.
      exists (calls ++ calls'). now rewrite map_app.
    + now exists calls.
    + now exists calls.
  - rewrite (for_page_stop next _ _ _ _ Hnext). now exists calls.
  - rewrite (for_page_failure next _ _ _ _ _ Hnext). now exists calls.
Qed.

(** A loop that returns has been handed pages until the iterator stopped,
    and returns what it started from plus what each of them adds. *)
Lemma for_page_return (fuel : nat) :
  forall (it : I) (total_size : Z) (tr : trace) (result : Z),
    for_page next fuel it total_size = (tr, Return result) ->
    exists pages calls it_end calls_end,
      yields next it pages calls it_end /\
      next it_end = (calls_end, StopIteration) /\
      (List.length pages < fuel)%nat /\
      tr = map S3 (calls ++ calls_end) /\
      result = total_size + contributions pages.
Proof.
  induction fuel as [| fuel IH]; intros it total_size tr result; [discriminate |].
  destruct (next it) as [calls [page rest | | e]] eqn:Hnext.
  - rewrite (for_page_yield next _ _ _ _ _ _ Hnext).
    pose proof (sum_page_shift page total_size) as Hshift.
    destruct (sum_page page total_size) as [total_size' | e |]; try discriminate.
    rewrite bind_return.
    destruct (for_page next fuel rest total_size') as [tr' r] eqn:Hrest. simpl.
    intro H. injection H as <- ->.
    destruct (IH _ _ _ _ Hrest)
      as (pages & calls' & it_end & calls_end & Hy & Hstop & Hlen & -> & ->).
    exists (page :: pages), (calls ++ calls'), it_end, calls_end.
    repeat split.
    + exact (yields_cons next _ _ _ _ _ _ _ Hnext Hy).
    + assumption.
    + simpl. lia.
    + now rewrite !map_app, app_assoc.
    + destruct (sum_page page 0); try discriminate.
      injection Hshift as ->. unfold contributions. simpl. lia.
  - rewrite (for_page_stop next _ _ _ _ Hnext). intro H. injection H as <- <-.
    exists [], [], it, calls. repeat split.
    + constructor.
    + assumption.
    + simpl. lia.
    + unfold contributions. simpl. lia.
  - rewrite (for_page_failure next _ _ _ _ _ Hnext). discriminate.
Qed.

End AnyPages.

Lemma requests_not_print (calls : list s3_call) :
  filter is_print (map S3 calls) = [].
Proof. induction calls; simpl; auto. Qed.

(** ** [get_s3_bucket_size_bytes], whatever the pages are *)

Section MoreAggregation.

Context {I : Type}.
Variable paginate : client -> string -> I.
Variable next : I -> list s3_call * step I.
Variables s3_endpoint_url s3_region_name s3_aws_access_key_id
  s3_aws_secret_access_key s3_bucket_name : string.

#[local] Abbreviation page_iterator :=
  (paginate (session_client s3_endpoint_url s3_region_name s3_aws_access_key_id
               s3_aws_secret_access_key) s3_bucket_name).
#[local] Abbreviation aggregate fuel :=
  (get_s3_bucket_size_bytes paginate next fuel s3_endpoint_url s3_region_name
     s3_aws_access_key_id s3_aws_secret_access_key s3_bucket_name).

(** A page on which lines 39 to 41 raise ends the function there. *)
Lemma aggregate_page_raises (pages : list pyobj) (listing : list (list Z))
    (calls calls_k : list s3_call) (it_k rest : I) (page : pyobj) (e : exn)
    (fuel : nat) :
  yields next page_iterator pages calls it_k ->
  Forall2 page_sizes pages listing ->
  next it_k = (calls_k, Yield page rest) ->
  sum_page page 0 = Raise e ->
  (List.length pages < fuel)%nat ->
  aggregate fuel = (map S3 (calls ++ calls_k), Raise e).
Proof.
  intros Hy Hpages Hnext Hpage Hfuel.
  apply aggregate_loop_raise.
  replace fuel with (List.length pages + S (fuel - S (List.length pages)))%nat by lia.
  rewrite (for_page_yields next _ _ _ _ _ Hy Hpages).
  rewrite (for_page_yield next _ _ _ _ _ _ Hnext).
  rewrite sum_page_shift, Hpage. simpl. now rewrite map_app.
Qed.

(** X1.  A page without [Contents], wherever it comes in the listing, ends
    [get_s3_bucket_size_bytes] with [KeyError]: the pages after it are not
    requested, and no message is printed. *)
Theorem missing_contents_ends_listing (pages : list pyobj) (listing : list (list Z))
    (calls calls_k : list s3_call) (it_k rest : I)
    (entries : list (string * pyobj)) (fuel : nat) :
  yields next page_iterator pages calls it_k ->
  Forall2 page_sizes pages listing ->
  next it_k = (calls_k, Yield (VDict entries) rest) ->
  lookup "Contents" entries = None ->
  (List.length pages < fuel)%nat ->
  aggregate fuel = (map S3 (calls ++ calls_k), Raise (KeyError "Contents")).
Proof.
  intros Hy Hpages Hnext Hmissing Hfuel.
  apply (aggregate_page_raises _ _ _ _ _ _ _ _ _ Hy Hpages Hnext); [| assumption].
  now apply sum_page_no_contents.
Qed.

(** X2.  An object whose [Size] is not a number (a text, [None], a list, a
    dictionary) ends [get_s3_bucket_size_bytes] with [TypeError], whatever
    was summed before it. *)
Theorem size_not_a_number (pages : list pyobj) (listing : list (list Z))
    (calls calls_k : list s3_call) (it_k rest : I) (page : pyobj)
    (before : list pyobj) (sizes : list Z) (item size : pyobj) (after : list pyobj)
    (fuel : nat) :
  yields next page_iterator pages calls it_k ->
  Forall2 page_sizes pages listing ->
  next it_k = (calls_k, Yield page rest) ->
  getitem page "Contents" = Return (VList (before ++ item :: after)) ->
  Forall2 object_size before sizes ->
  getitem item "Size" = Return size ->
  is_number size = false ->
  (List.length pages < fuel)%nat ->
  aggregate fuel = (map S3 (calls ++ calls_k), Raise TypeError).
Proof.
  intros Hy Hpages Hnext Hcontents Hbefore Hitem Hsize Hfuel.
  apply (aggregate_page_raises _ _ _ _ _ _ _ _ _ Hy Hpages Hnext); [| assumption].
  unfold sum_page. rewrite Hcontents. simpl. clear Hcontents.
  generalize 0. induction Hbefore as [| x z xs zs Hx _ IH]; intro total_size; simpl.
  - rewrite Hitem. simpl. destruct size; try discriminate Hsize; reflexivity.
  - rewrite Hx. simpl. apply IH.
Qed.

(** X3.  A page whose [Contents] cannot be iterated ([None], a number) ends
    [get_s3_bucket_size_bytes] with [TypeError]. *)
Theorem contents_not_iterable (pages : list pyobj) (listing : list (list Z))
    (calls calls_k : list s3_call) (it_k rest : I) (page contents : pyobj)
    (fuel : nat) :
  yields next page_iterator pages calls it_k ->
  Forall2 page_sizes pages listing ->
  next it_k = (calls_k, Yield page rest) ->
  getitem page "Contents" = Return contents ->
  iterable contents = false ->
  (List.length pages < fuel)%nat ->
  aggregate fuel = (map S3 (calls ++ calls_k), Raise TypeError).
Proof.
  intros Hy Hpages Hnext Hcontents Hiter Hfuel.
  apply (aggregate_page_raises _ _ _ _ _ _ _ _ _ Hy Hpages Hnext); [| assumption].
  unfold sum_page. rewrite Hcontents. simpl.
  destruct contents; try discriminate Hiter; reflexivity.
Qed.

(** X4.  [get_s3_bucket_size_bytes] prints its message only when it returns,
    once, as the last thing it does, and the message is about the total it
    returns; a run that raises prints nothing. *)
Theorem message_only_on_return (fuel : nat) :
  match snd (aggregate fuel) with
  | Return total_size =>
      exists tr,
        fst (aggregate fuel) =
          tr ++ [print s3_bucket_name {| num := total_size; den := 1024 * 1024 |}] /\
        filter is_print tr = []
  | _ => filter is_print (fst (aggregate fuel)) = []
  end.
Proof.
  destruct (for_page_only_requests next fuel page_iterator 0) as [calls Hcalls].
  destruct (aggregate_cases paginate next s3_endpoint_url s3_region_name
              s3_aws_access_key_id s3_aws_secret_access_key s3_bucket_name fuel)
    as [(tr & e & Hl & E) | [(tr & Hl & E) | [(tr & t & Hl & E) | (tr & t & Hl & E)]]];
    rewrite E; rewrite Hl in Hcalls; simpl in *; subst tr;
    try apply requests_not_print.
  exists (map S3 calls). split; [reflexivity | apply requests_not_print].
Qed.

(** X5.  The sizes are not checked for their sign: a listing with negative
    sizes is summed like any other, and the bound of line 43 is on the
    magnitude of the total. *)
Theorem total_of_any_sign (pages : list pyobj) (listing : list (list Z))
    (calls calls_end : list s3_call) (it_end : I) (fuel : nat) :
  yields next page_iterator pages calls it_end ->
  next it_end = (calls_end, StopIteration) ->
  Forall2 page_sizes pages listing ->
  (List.length pages < fuel)%nat ->
  (Z.abs (total_bytes listing) <= max_total ->
   aggregate fuel =
   (map S3 (calls ++ calls_end)
      ++ [print s3_bucket_name {| num := total_bytes listing; den := 1024 * 1024 |}],
    Return (total_bytes listing))) /\
  (max_total < Z.abs (total_bytes listing) ->
   aggregate fuel = (map S3 (calls ++ calls_end), Raise OverflowError)).
Proof.
  intros Hy Hstop Hpages Hfuel.
  rewrite (aggregate_loop_return _ _ _ _ _ _ _ _ _ _
             (for_page_listing _ _ _ _ _ _ _ _ _ _ _ _ _ Hy Hstop Hpages Hfuel)).
  destruct (Z.ltb_spec max_total (Z.abs (total_bytes listing))); split;
    intro; try reflexivity; lia.
Qed.

(** X6.  [get_s3_bucket_size_bytes] never returns a partial sum: when it
    returns, the iterator has handed over its pages and then stopped, and
    the value is what all of these pages add, each counted once. *)
Theorem returned_total_is_complete (fuel : nat) (tr : trace) (total_size : Z) :
  aggregate fuel = (tr, Return total_size) ->
  exists pages calls it_end calls_end,
    yields next page_iterator pages calls it_end /\
    next it_end = (calls_end, StopIteration) /\
    total_size = contributions pages /\
    Z.abs total_size <= max_total /\
    tr = map S3 (calls ++ calls_end)
           ++ [print s3_bucket_name {| num := total_size; den := 1024 * 1024 |}].
Proof.
  intro H.
  destruct (for_page next fuel page_iterator 0) as [tr0 [v | e |]] eqn:Hloop.
  - rewrite (aggregate_loop_return _ _ _ _ _ _ _ _ _ _ Hloop) in H.
    destruct (Z.ltb_spec max_total (Z.abs v)) as [Hlt | Hle]; [discriminate |].
    injection H as <- <-.
    destruct (for_page_return next _ _ _ _ _ Hloop)
      as (pages & calls & it_end & calls_end & Hy & Hstop & _ & -> & ->).
    exists pages, calls, it_end, calls_end. now repeat split.
  - rewrite (aggregate_loop_raise _ _ _ _ _ _ _ _ _ _ Hloop) in H. discriminate.
  - rewrite (aggregate_loop_running _ _ _ _ _ _ _ _ _ Hloop) in H. discriminate.
Qed.

End MoreAggregation.

(** ** The order of the objects and the page boundaries *)

Lemma sum_sizes_app (sizes sizes' : list Z) :
  sum_sizes (sizes ++ sizes') = sum_sizes sizes + sum_sizes sizes'.
Proof. induction sizes as [| size sizes IH]; simpl; [reflexivity | rewrite IH; lia]. Qed.

Lemma total_bytes_concat (listing : list (list Z)) :
  total_bytes listing = sum_sizes (List.concat listing).
Proof.
  induction listing as [| sizes listing IH]; simpl; [reflexivity |].
  now rewrite sum_sizes_app, IH.
Qed.

Lemma sum_sizes_permutation (sizes sizes' : list Z) :
  Permutation sizes sizes' -> sum_sizes sizes = sum_sizes sizes'.
Proof. induction 1; simpl; lia. Qed.

(** X7.  Among listings in which every page carries its list of objects,
    [Contents], only the objects count, not how they are spread over such
    pages nor in which order they are listed: two such listings of the same
    objects end [get_s3_bucket_size_bytes] the same way. *)
Theorem page_boundaries_irrelevant {I1 I2 : Type}
    (paginate1 : client -> string -> I1) (next1 : I1 -> list s3_call * step I1)
    (paginate2 : client -> string -> I2) (next2 : I2 -> list s3_call * step I2)
    (s3_endpoint_url s3_region_name s3_aws_access_key_id
     s3_aws_secret_access_key s3_bucket_name : string)
    (pages1 pages2 : list pyobj) (listing1 listing2 : list (list Z))
    (calls1 calls_end1 calls2 calls_end2 : list s3_call)
    (it_end1 : I1) (it_end2 : I2) (fuel1 fuel2 : nat) :
  let s3 := session_client s3_endpoint_url s3_region_name s3_aws_access_key_id
              s3_aws_secret_access_key in
  yields next1 (paginate1 s3 s3_bucket_name) pages1 calls1 it_end1 ->
  next1 it_end1 = (calls_end1, StopIteration) ->
  Forall2 page_sizes pages1 listing1 ->
  (List.length pages1 < fuel1)%nat ->
  yields next2 (paginate2 s3 s3_bucket_name) pages2 calls2 it_end2 ->
  next2 it_end2 = (calls_end2, StopIteration) ->
  Forall2 page_sizes pages2 listing2 ->
  (List.length pages2 < fuel2)%nat ->
  Permutation (List.concat listing1) (List.concat listing2) ->
  snd (get_s3_bucket_size_bytes paginate1 next1 fuel1 s3_endpoint_url s3_region_name
         s3_aws_access_key_id s3_aws_secret_access_key s3_bucket_name) =
  snd (get_s3_bucket_size_bytes paginate2 next2 fuel2 s3_endpoint_url s3_region_name
         s3_aws_access_key_id s3_aws_secret_access_key s3_bucket_name).
Proof.
  intros s3 Hy1 Hstop1 Hpages1 Hfuel1 Hy2 Hstop2 Hpages2 Hfuel2 Hperm.
  rewrite (aggregate_loop_return _ _ _ _ _ _ _ _ _ _
             (for_page_listing _ _ _ _ _ _ _ _ _ _ _ _ _ Hy1 Hstop1 Hpages1 Hfuel1)).
  rewrite (aggregate_loop_return _ _ _ _ _ _ _ _ _ _
             (for_page_listing _ _ _ _ _ _ _ _ _ _ _ _ _ Hy2 Hstop2 Hpages2 Hfuel2)).
  rewrite !total_bytes_concat, (sum_sizes_permutation _ _ Hperm).
  now destruct (max_total <? Z.abs (sum_sizes (List.concat listing2))).
Qed.

(** ** [collect_metric], whatever the pages are *)

Section MorePipeline.

Context {I : Type}.
Variable paginate : client -> string -> I.
Variable next : I -> list s3_call * step I.
Variable sdk : otel_call -> option exn.
Variables s3_endpoint_url s3_region_name s3_aws_access_key_id
  s3_aws_secret_access_key s3_bucket_name : string.
Variables otel_service_name otel_endpoint otel_metric_name : string.
Variable otel_attributes : pyobj.

#[local] Abbreviation aggregate fuel :=
  (get_s3_bucket_size_bytes paginate next fuel s3_endpoint_url s3_region_name
     s3_aws_access_key_id s3_aws_secret_access_key s3_bucket_name).
#[local] Abbreviation collect fuel :=
  (collect_metric paginate next sdk fuel s3_endpoint_url s3_region_name
     s3_aws_access_key_id s3_aws_secret_access_key s3_bucket_name
     otel_service_name otel_endpoint otel_metric_name otel_attributes).

(** X8.  [collect_metric] is [get_s3_bucket_size_bytes] and then, if that
    returned, [send_metric]: every request for a page and the message come
    before the first call of the telemetry SDK, and [collect_metric] returns
    exactly when the aggregation returned and none of the calls of
    [send_metric] with its total raised. *)
Theorem collect_metric_phases (fuel : nat) :
  exists tr_otel,
    fst (collect fuel) = fst (aggregate fuel) ++ tr_otel /\
    filter is_otel (fst (aggregate fuel)) = [] /\
    filter is_otel tr_otel = tr_otel /\
    (snd (collect fuel) = Return tt <->
     exists s3_size_bytes,
       snd (aggregate fuel) = Return s3_size_bytes /\
       forall c,
         In c (sdk_calls otel_service_name otel_endpoint otel_metric_name
                 otel_attributes s3_size_bytes) ->
         sdk c = None).
Proof.
  pose proof (aggregate_not_otel paginate next s3_endpoint_url s3_region_name
                s3_aws_access_key_id s3_aws_secret_access_key s3_bucket_name fuel)
    as Hno.
  unfold collect_metric.
  destruct (aggregate fuel) as [tr [v | e |]]; cbn [fst snd] in *.
  - rewrite bind_return. cbn [fst snd].
    exists (fst (send_metric sdk otel_service_name otel_endpoint otel_metric_name
                   otel_attributes v)).
    split; [reflexivity |]. split; [assumption |]. split.
    + apply send_metric_only_otel.
    + split.
      * intro Hret. exists v. split; [reflexivity |].
        now destruct (send_metric_returned _ _ _ _ _ _ Hret).
      * intros (v' & Hv & Hall). injection Hv as <-.
        now apply send_metric_all_return.
  - exists []. rewrite app_nil_r. repeat split; try assumption; try discriminate.
    intros (v & Hv & _). discriminate.
  - exists []. rewrite app_nil_r. repeat split; try assumption; try discriminate.
    intros (v & Hv & _). discriminate.
Qed.

End MorePipeline.

(** ** A listing that does not end *)

Section Endless.

Context {I : Type}.
Variable paginate : client -> string -> I.
Variable next : I -> list s3_call * step I.
Variable sdk : otel_call -> option exn.
Variables s3_endpoint_url s3_region_name s3_aws_access_key_id
  s3_aws_secret_access_key s3_bucket_name : string.
Variables otel_service_name otel_endpoint otel_metric_name : string.
Variable otel_attributes : pyobj.

(** Whatever state the iterator is in, it has one more page of objects. *)
Hypothesis one_more_page :
  forall it, exists calls page rest sizes,
    next it = (calls, Yield page rest) /\ page_sizes page sizes.

Lemma for_page_endless (fuel : nat) :
  forall (it : I) (total_size : Z),
    snd (for_page next fuel it total_size) = Running.
Proof.
  induction fuel as [| fuel IH]; intros it total_size; [reflexivity |].
  destruct (one_more_page it) as (calls & page & rest & sizes & Hnext & Hsizes).
  rewrite (for_page_yield next _ _ _ _ _ _ Hnext).
  rewrite (sum_page_sizes _ _ _ Hsizes), bind_return. simpl. apply IH.
Qed.

(** X10.  While the iterator goes on handing over pages, [collect_metric]
    goes on summing: after any number of pages it has neither printed the
    message nor called the telemetry SDK. *)
Theorem endless_listing_reports_nothing (fuel : nat) :
  let run := collect_metric paginate next sdk fuel
               s3_endpoint_url s3_region_name s3_aws_access_key_id
               s3_aws_secret_access_key s3_bucket_name
               otel_service_name otel_endpoint otel_metric_name otel_attributes in
  snd run = Running /\ filter is_print (fst run) = [] /\ filter is_otel (fst run) = [].
Proof.
  intro run. subst run. unfold collect_metric, get_s3_bucket_size_bytes.
  pose proof (for_page_endless fuel
                (paginate (session_client s3_endpoint_url s3_region_name
                             s3_aws_access_key_id s3_aws_secret_access_key)
                   s3_bucket_name) 0) as Hrun.
  destruct (for_page_only_requests next fuel
              (paginate (session_client s3_endpoint_url s3_region_name
                           s3_aws_access_key_id s3_aws_secret_access_key)
                 s3_bucket_name) 0) as [calls Hcalls].
  destruct (for_page next fuel _ 0) as [tr r]. simpl in *. subst tr r. simpl.
  repeat split; [apply requests_not_print | apply requests_not_otel].
Qed.

End Endless.

(** ** The further properties on recorded listings *)

Lemma missing_contents_ends_listing_witness :
  on_tape missing_contents_second 4 = ([], Raise (KeyError "Contents")).
Proof.
  apply (missing_contents_ends_listing (fun _ _ => missing_contents_second) tape_next
           _ _ _ _ _ [page_of [1048576; 2097152]] [[1048576; 2097152]] [] []
           [Page (VDict [("KeyCount", VInt 0)]); Page (page_of [5242880])]
           [Page (page_of [5242880])] [("KeyCount", VInt 0)] 4).
  - exact (tape_yields [page_of [1048576; 2097152]]
             [Page (VDict [("KeyCount", VInt 0)]); Page (page_of [5242880])]).
  - repeat constructor; apply page_of_sizes.
  - reflexivity.
  - reflexivity.
  - cbn [List.length]. lia.
Defined.

Lemma size_not_a_number_witness :
  on_tape text_size 2 = ([], Raise TypeError).
Proof.
  apply (size_not_a_number (fun _ _ => text_size) tape_next
           _ _ _ _ _ [] [] [] [] text_size []
           (VDict [("Contents",
                    VList [obj 1; VDict [("Key", VStr "k"); ("Size", VStr "12")]; obj 2])])
           [obj 1] [1] (VDict [("Key", VStr "k"); ("Size", VStr "12")]) (VStr "12")
           [obj 2] 2).
  - exact (tape_yields [] text_size).
  - constructor.
  - reflexivity.
  - reflexivity.
  - repeat constructor.
  - reflexivity.
  - reflexivity.
  - cbn [List.length]. lia.
Defined.

Lemma contents_not_iterable_witness :
  on_tape null_contents 3 = ([], Raise TypeError).
Proof.
  apply (contents_not_iterable (fun _ _ => null_contents) tape_next
           _ _ _ _ _ [page_of [7]] [[7]] [] []
           [Page (VDict [("Contents", VNone)])] []
           (VDict [("Contents", VNone)]) VNone 3).
  - exact (tape_yields [page_of [7]] [Page (VDict [("Contents", VNone)])]).
  - repeat constructor; apply page_of_sizes.
  - reflexivity.
  - reflexivity.
  - reflexivity.
  - cbn [List.length]. lia.
Defined.

Lemma total_of_any_sign_witness :
  on_tape negative_size 2 =
  ([print "some-name" {| num := -7; den := 1024 * 1024 |}], Return (-7)).
Proof.
  apply (proj1 (total_of_any_sign (fun _ _ => negative_size) tape_next
                  _ _ _ _ _ [page_of [5; -12]] [[5; -12]] [] [] [] 2
                  (tape_yields [page_of [5; -12]] []) eq_refl
                  ltac:(repeat constructor; apply page_of_sizes)
                  ltac:(cbn [List.length]; lia))).
  apply Z.leb_le. vm_compute. reflexivity.
Defined.

Lemma returned_total_is_complete_witness :
  exists pages calls it_end calls_end,
    yields tape_next two_pages pages calls it_end /\
    tape_next it_end = (calls_end, StopIteration) /\
    8388608 = contributions pages /\
    Z.abs 8388608 <= max_total /\
    [print "some-name" {| num := 8388608; den := 1024 * 1024 |}] =
    map S3 (calls ++ calls_end)
      ++ [print "some-name" {| num := 8388608; den := 1024 * 1024 |}].
Proof.
  apply (returned_total_is_complete (fun _ _ => two_pages) tape_next
           "https://storage.yandexcloud.net" "ru-central1" "a1b2c3d4aqweqwe"
           "Yer123sdf456sdf790" "some-name" 3).
  reflexivity.
Defined.

Lemma page_boundaries_irrelevant_witness :
  snd (on_tape two_pages 3) = snd (on_tape regrouped_pages 2).
Proof.
  apply (page_boundaries_irrelevant
           (fun _ _ => two_pages) tape_next (fun _ _ => regrouped_pages) tape_next
           _ _ _ _ _
           [page_of [1048576; 2097152]; page_of [5242880]]
           [page_of [2097152; 1048576; 5242880]]
           [[1048576; 2097152]; [5242880]] [[2097152; 1048576; 5242880]]
           [] [] [] [] [] [] 3 2).
  - exact (tape_yields [page_of [1048576; 2097152]; page_of [5242880]] []).
  - reflexivity.
  - repeat constructor; apply page_of_sizes.
  - cbn [List.length]. lia.
  - exact (tape_yields [page_of [2097152; 1048576; 5242880]] []).
  - reflexivity.
  - repeat constructor; apply page_of_sizes.
  - cbn [List.length]. lia.
  - apply perm_swap.
Defined.

Lemma endless_listing_reports_nothing_witness :
  snd (collect_metric (fun _ _ => tt) forever_next sdk_returns 1000
         "https://storage.yandexcloud.net" "ru-central1" "a1b2c3d4aqweqwe"
         "Yer123sdf456sdf790" "some-name"
         "s3_monitoring" "http://localhost:4317" "s3_size" example_attributes)
  = Running.
Proof.
  apply (endless_listing_reports_nothing (fun _ _ => tt) forever_next sdk_returns
           _ _ _ _ _ _ _ _ _).
  intros []. exists [], (page_of [1]), tt, [1]. split; [reflexivity | apply page_of_sizes].
Defined.
